(** * Laydown React renderer: a shallow embedding

    Source files embedded here:
    - [laydown-react/src/components/node-renderer.tsx]: the per-type render
      methods of [LaydownNodeRenderer], the [TitleAnchor] component and the
      [getRenderer] / [stringify] methods of [LaydownReactRenderer];
    - the [laydown] package entry point, for [ExtendedSyntaxOptions].

    Conventions.  JavaScript strings are [string]s whose characters are the
    code units below 256.  [undefined] and [null] of an optional field are
    [None].  React keys are reconciliation hints that never reach the output,
    so elements carry no key.  A call that can throw returns a [Result]. *)

From Stdlib Require Import String Ascii List ZArith NArith Bool DecimalString Lia.
Import ListNotations.
Open Scope string_scope.
Open Scope list_scope.

Set Warnings "-register-all".

(* ------------------------------------------------------------------ *)
(** * JavaScript helpers *)
(* ------------------------------------------------------------------ *)

Module JS.

(** Thrown values: the built-in [TypeError], and [new Error(msg)]. *)
Inductive Exn : Type :=
| TypeError (msg : string)
| Error (msg : string).

(** Values a call can return that are not of its declared type: TypeScript
    casts are not checked at run time.  [Receiver] is the object the call
    was bound to. *)
Inductive Value : Type :=
| Undefined
| Boolean (b : bool)
| Text (s : string)
| Receiver.

(** How a call of declared result type [A] completes: with a value of that
    type, by throwing, or with a value outside the type. *)
Inductive Result (A : Type) : Type :=
| Ok (a : A)
| Throw (e : Exn)
| Returned (v : Value).
Arguments Ok {A} a.
Arguments Throw {A} e.
Arguments Returned {A} v.

(** [a ?? b] *)
Definition nullish {A : Type} (a : option A) (b : A) : A :=
  match a with
  | Some x => x
  | None => b
  end.

(** [a ?? b] where [b] may itself be undefined. *)
Definition nullish_opt {A : Type} (a b : option A) : option A :=
  match a with
  | Some x => Some x
  | None => b
  end.

(** Truthiness of an optional boolean and of an optional string. *)
Definition truthy_bool (b : option bool) : bool :=
  match b with
  | Some true => true
  | _ => false
  end.

Definition truthy_string (s : option string) : bool :=
  match s with
  | Some (String _ _) => true
  | _ => false
  end.

(** The class [\s] on code units below 256: TAB, LF, VT, FF, CR, space
    and the no-break space. *)
Definition is_space (c : ascii) : bool :=
  match nat_of_ascii c with
  | 9 | 10 | 11 | 12 | 13 | 32 | 160 => true
  | _ => false
  end.

(** [s.split(/\s+/)]: [in_sep] records that the scan is inside a run of
    separators, [cur] is the piece being collected.  The piece after the
    last separator is always pushed, also when it is empty. *)
Fixpoint split_from (in_sep : bool) (cur : string) (s : string) : list string :=
  match s with
  | EmptyString => [cur]
  | String c r =>
      if is_space c then
        if in_sep then split_from true cur r
        else cur :: split_from true EmptyString r
      else split_from false (cur ++ String c EmptyString) r
  end.

Definition split_ws (s : string) : list string :=
  split_from false EmptyString s.

(** [s.replace(/^#?/, '')] *)
Definition strip_hash (s : string) : string :=
  match s with
  | String "#"%char r => r
  | _ => s
  end.

(** A non-negative integer inside a template literal. *)
Definition number_to_string (n : N) : string :=
  NilEmpty.string_of_uint (N.to_uint n).

End JS.
Import JS.

(* ------------------------------------------------------------------ *)
(** * Data model *)
(* ------------------------------------------------------------------ *)

(** Template invocation parameters: a JSON-like value (the default template
    component prints them with [JSON.stringify]). *)
Inductive Json : Type :=
| JNull
| JBool (b : bool)
| JNum (z : Z)
| JStr (s : string)
| JArr (l : list Json)
| JObj (fields : list (string * Json)).

Definition TemplateParams : Type := Json.

(** [TableCellContent], as read by [table_cell]. *)
Record TableCellContent : Type := mkCell {
  isHeader : option bool;
  align : option string
}.

(** [HtmlParagraphDefinition], as read by [html_paragraph]. *)
Record HtmlParagraphDefinition : Type := mkHtmlPara {
  startTag : option string;
  endTag : option string;
  tagName : option string
}.

(** [node.customData]: absent, or the payload of one of the extended types. *)
Inductive CustomData : Type :=
| NoData
| TableCell (c : TableCellContent)
| HtmlParagraph (d : HtmlParagraphDefinition)
| Template (p : TemplateParams).

(** The fields of [Node<ExtendedNodeType>] that the renderer reads.  [parent]
    is the back-reference used for ancestor queries. *)
Inductive ENode : Type := mkNode {
  type : string;
  literal : option string;
  destination : option string;
  title : option string;
  info : option string;
  level : N;
  listType : option string;
  listTight : option bool;
  listStart : option Z;
  customData : CustomData;
  parent : option ENode
}.

(** [ReactRenderingOptions]: [HtmlRenderingOptions] with [parseLink] and
    [templateHandler].  A component is referred to by its name. *)
Record ReactRenderingOptions : Type := mkOptions {
  softbreak : option string;
  safe : option bool;
  esc : option (string -> string);
  parseLink : option (string -> string);
  templateHandler : option string
}.

(** Values of element properties. *)
Inductive PropValue : Type :=
| VUndefined
| VString (s : string)
| VNumber (z : Z)
| VBool (b : bool)
| VStyle (decls : list (string * string))
| VData (d : CustomData)
| VOptions (o : ReactRenderingOptions).

Definition Props : Type := list (string * PropValue).

(** React elements and their children.  [Host] is an intrinsic element such
    as [<p>]; [Component] is an element of a component whose body is not part
    of this file ([CodeBlock], [MathBlock], ...).  A child is nothing
    ([null], [undefined], [false]), a string, an array, or an element. *)
Inductive Element : Type :=
| Fragment (children : list Child)
| Host (tag : string) (props : Props) (children : list Child)
| Component (name : string) (props : Props) (children : list Child)
with Child : Type :=
| CEmpty
| CText (s : string)
| CArray (items : list Child)
| CElement (e : Element).

Definition RenderedNode : Type := Element.

(** [{children}] with [children : RenderedNode[]]. *)
Definition arr (children : list RenderedNode) : Child :=
  CArray (map CElement children).

(** [{node.literal}] *)
Definition lit (s : option string) : Child :=
  match s with
  | Some x => CText x
  | None => CEmpty
  end.

Definition opt_string (s : option string) : PropValue :=
  match s with
  | Some x => VString x
  | None => VUndefined
  end.

(** ** Observations on elements *)

Definition props_of (e : Element) : Props :=
  match e with
  | Fragment _ => []
  | Host _ p _ => p
  | Component _ p _ => p
  end.

Definition tag_of (e : Element) : option string :=
  match e with
  | Host t _ _ => Some t
  | _ => None
  end.

Definition children_of (e : Element) : list Child :=
  match e with
  | Fragment cs => cs
  | Host _ _ cs => cs
  | Component _ _ cs => cs
  end.

Fixpoint get_prop (k : string) (p : Props) : PropValue :=
  match p with
  | [] => VUndefined
  | (k', v) :: rest => if String.eqb k k' then v else get_prop k rest
  end.

(** An attribute reaches the output when its property is not [undefined]. *)
Definition has_attribute (k : string) (e : Element) : bool :=
  match get_prop k (props_of e) with
  | VUndefined => false
  | _ => true
  end.

(** The text leaves below an element, in document order. *)
Fixpoint texts (e : Element) : list string :=
  match e with
  | Fragment cs => flat_map texts_child cs
  | Host _ _ cs => flat_map texts_child cs
  | Component _ _ cs => flat_map texts_child cs
  end
with texts_child (c : Child) : list string :=
  match c with
  | CEmpty => []
  | CText s => [s]
  | CArray l => flat_map texts_child l
  | CElement e => texts e
  end.

(** The property lists of the host elements with tag [t] below an element. *)
Fixpoint hosts (t : string) (e : Element) : list Props :=
  match e with
  | Fragment cs => flat_map (hosts_child t) cs
  | Host t' p cs =>
      (if String.eqb t t' then [p] else []) ++ flat_map (hosts_child t) cs
  | Component _ _ cs => flat_map (hosts_child t) cs
  end
with hosts_child (t : string) (c : Child) : list Props :=
  match c with
  | CEmpty => []
  | CText _ => []
  | CArray l => flat_map (hosts_child t) l
  | CElement e => hosts t e
  end.

(** [React.Children.toArray]: nested arrays are flattened, empty children
    are dropped, fragments are kept as they are. *)
Fixpoint Children_toArray (c : Child) : list Child :=
  match c with
  | CEmpty => []
  | CText s => [CText s]
  | CArray l => flat_map Children_toArray l
  | CElement e => [CElement e]
  end.

(** The result of [html-react-parser]'s [parse]:
    [string | JSX.Element | JSX.Element[]]. *)
Inductive HtmlNode : Type :=
| HString (s : string)
| HElement (e : Element)
| HArray (l : list Element).

Definition html_child (h : HtmlNode) : Child :=
  match h with
  | HString s => CText s
  | HElement e => CElement e
  | HArray l => arr l
  end.

(** ** Rendering context *)

(** Modelled from the spec: the macro store of the [laydown] package
    ([base/macro]) is not part of the sources.  A recorded annotation is a
    string value or a bare present-flag; [check] answers [None] for
    [undefined]. *)
Inductive MacroValue : Type :=
| MFlag
| MString (s : string).

Definition macro_truthy (v : option MacroValue) : bool :=
  match v with
  | Some MFlag => true
  | Some (MString (String _ _)) => true
  | _ => false
  end.

Definition macro_defined (v : option MacroValue) : bool :=
  match v with
  | Some _ => true
  | None => false
  end.

Record MacroStore : Type := mkStore {
  check : string -> string -> option MacroValue
}.

Record LaydownRenderingContext : Type := mkContext {
  macroStore : MacroStore;
  navHref : option string
}.

Definition RenderFunction : Type :=
  LaydownRenderingContext -> ENode -> list RenderedNode -> Result RenderedNode.

(** ** Imported functions and assets

    What [node-renderer.tsx] imports from modules that are not part of the
    sources. *)
Class Imports : Type := mkImports {
  potentiallyUnsafe : option string -> bool;
  deepFilterHtmlNode : HtmlNode -> HtmlNode;
  parse : string -> HtmlNode;
  replaceChildren : Element -> list RenderedNode -> Element;
  handleHtmlElementLink : Element -> option (string -> string) -> Element;
  deepFilterStringChildren : Element -> string;
  linkIcon : string;
  styles : string -> string
}.

(* ------------------------------------------------------------------ *)
(** * [TitleAnchor] *)
(* ------------------------------------------------------------------ *)

Record TitleAnchorProps : Type := mkAnchor {
  to : string;
  id : string;
  noClick : option bool
}.

Section Renderer.

Context {imports : Imports}.

(** A function component is rendered by calling it with its properties;
    an element of [TitleAnchor] is modelled by that call. *)
Definition TitleAnchor (props : TitleAnchorProps) : Element :=
  Host "div" [("className", VString (styles "title-anchor"))]
    [CElement
       (Host "div" []
          [CElement
             (Host "span"
                [("className", VString (styles "title-id"));
                 ("id", VString (id props))] []);
           if negb (truthy_bool (noClick props)) then
             CElement
               (Host "a" [("href", VString (to props))]
                  [CElement (Host "img" [("src", VString linkIcon)] [])])
           else CEmpty])].

(* ---------------------------------------------------------------- *)
(** * [LaydownNodeRenderer] *)
(* ---------------------------------------------------------------- *)

(** The constructor: [Object.assign({ softbreak: '\n' }, options)]. *)
Definition default_softbreak : string := String (ascii_of_nat 10) EmptyString.

Definition new_options (o : option ReactRenderingOptions) : ReactRenderingOptions :=
  match o with
  | None => mkOptions (Some default_softbreak) None None None None
  | Some o =>
      mkOptions (Some (nullish (softbreak o) default_softbreak))
        (safe o) (esc o) (parseLink o) (templateHandler o)
  end.

(** [this.options] of the receiver. *)
Variable options : ReactRenderingOptions.

Definition text (_ : LaydownRenderingContext) (node : ENode) : RenderedNode :=
  Fragment [lit (literal node)].

Definition softbreak_ : RenderedNode := Fragment [].

Definition linebreak : RenderedNode := Host "br" [] [].

Definition link (_ : LaydownRenderingContext) (node : ENode)
    (children : list RenderedNode) : RenderedNode :=
  let href :=
    if negb (truthy_bool (safe options) && potentiallyUnsafe (destination node))
    then destination node
    else None in
  let title_ :=
    if truthy_string (title node) then title node else None in
  Host "a" [("href", opt_string href); ("title", opt_string title_)]
    [arr children].

Definition image (_ : LaydownRenderingContext) (node : ENode) : RenderedNode :=
  if truthy_bool (safe options) && potentiallyUnsafe (destination node) then
    Host "span" [] [CText "[ERROR: POTENTIALLY UNSAFE LINK OMITTED]"]
  else
    let src :=
      match esc options with
      | Some f => f (nullish (destination node) "")
      | None => nullish (destination node) ""
      end in
    Host "img"
      [("src", VString match parseLink options with
                       | Some f => f src
                       | None => src
                       end)] [].

Definition emph (_ : LaydownRenderingContext) (_ : ENode)
    (children : list RenderedNode) : RenderedNode :=
  Host "em" [] [arr children].

Definition strong (_ : LaydownRenderingContext) (_ : ENode)
    (children : list RenderedNode) : RenderedNode :=
  Host "strong" [] [arr children].

Definition html_inline (_ : LaydownRenderingContext) (node : ENode) : RenderedNode :=
  if truthy_bool (safe options) then
    Fragment [CText "[ERROR: RAW HTML OMITTED]"]
  else
    Fragment [html_child (deepFilterHtmlNode (parse (nullish (literal node) "")))].

Definition html_block (context : LaydownRenderingContext) (node : ENode) : RenderedNode :=
  html_inline context node.

Definition code (_ : LaydownRenderingContext) (node : ENode) : RenderedNode :=
  Component "CodeSpan" [] [lit (literal node)].

(** [lang] of [code_block], before the math test. *)
Definition code_block_lang (node : ENode) : option string :=
  let info_words :=
    if truthy_string (info node) then split_ws (nullish (info node) "") else [] in
  match info_words with
  | w :: _ =>
      if (0 <? String.length w)%nat then
        Some match esc options with
             | Some f => f w
             | None => w
             end
      else None
  | [] => None
  end.

Definition is_math_lang (lang : option string) : bool :=
  match lang with
  | Some l => String.eqb l "math" || String.eqb l "latex"
  | None => false
  end.

Definition code_block (_ : LaydownRenderingContext) (node : ENode) : RenderedNode :=
  let lang := code_block_lang node in
  if is_math_lang lang then
    Component "MathBlock" [] [lit (literal node)]
  else
    Component "CodeBlock" [("lang", opt_string lang)] [lit (literal node)].

(** [node.parent?.parent] *)
Definition grandparent_of (node : ENode) : option ENode :=
  match parent node with
  | Some p => parent p
  | None => None
  end.

Definition paragraph (_ : LaydownRenderingContext) (node : ENode)
    (children : list RenderedNode) : RenderedNode :=
  match grandparent_of node with
  | Some grandparent =>
      if String.eqb (type grandparent) "list" then
        if truthy_bool (listTight grandparent) then Fragment [arr children]
        else Host "p" [] [arr children]
      else Host "p" [] [arr children]
  | None => Host "p" [] [arr children]
  end.

Definition block_quote (_ : LaydownRenderingContext) (_ : ENode)
    (children : list RenderedNode) : RenderedNode :=
  Host "blockquote" [] [arr children].

Definition item (_ : LaydownRenderingContext) (_ : ENode)
    (children : list RenderedNode) : RenderedNode :=
  Host "li" [] [arr children].

Definition list_ (_ : LaydownRenderingContext) (node : ENode)
    (children : list RenderedNode) : RenderedNode :=
  let start := listStart node in
  let _start :=
    match start with
    | Some z => if negb (Z.eqb z 1) then VNumber z else VUndefined
    | None => VUndefined
    end in
  match listType node with
  | Some "bullet" => Host "ul" [] [arr children]
  | _ => Host "ol" [("start", _start)] [arr children]
  end.

(** The two-level macro lookup written at each use in [heading]:
    [check(HeadingTag, attr) ?? check('heading', attr)]. *)
Definition heading_macro (context : LaydownRenderingContext) (HeadingTag attr : string)
    : option MacroValue :=
  nullish_opt (check (macroStore context) HeadingTag attr)
              (check (macroStore context) "heading" attr).

Definition heading (context : LaydownRenderingContext) (node : ENode)
    (children : list RenderedNode) : RenderedNode :=
  let HeadingTag := ("h" ++ number_to_string (level node))%string in
  let href := nullish (navHref context) "#null" in
  let shouldAlignCenter :=
    macro_defined (heading_macro context HeadingTag "align-center") in
  Host HeadingTag
    [("style", if shouldAlignCenter then VStyle [("textAlign", "center")]
               else VUndefined)]
    [CElement
       (TitleAnchor
          (mkAnchor href (strip_hash href)
             (Some (macro_truthy (heading_macro context HeadingTag "no-link")))));
     arr children].

Definition thematic_break : RenderedNode := Host "hr" [] [].

Definition document (_ : LaydownRenderingContext) (_ : ENode)
    (children : list RenderedNode) : RenderedNode :=
  Fragment [arr children].

Definition math_block (_ : LaydownRenderingContext) (node : ENode) : RenderedNode :=
  Component "MathBlock" [] [lit (literal node)].

Definition math_inline (_ : LaydownRenderingContext) (node : ENode) : RenderedNode :=
  Component "MathSpan" [] [lit (literal node)].

(** [xs[0]] as a child: [undefined] when the array is empty. *)
Definition first_child (xs : list Child) : Child :=
  match xs with
  | x :: _ => x
  | [] => CEmpty
  end.

Definition table (_ : LaydownRenderingContext) (_ : ENode)
    (children : list RenderedNode) : RenderedNode :=
  Host "table" []
    [first_child (Children_toArray (arr children));
     CElement (Host "tbody" [] [CArray (tl (Children_toArray (arr children)))])].

Definition table_head (_ : LaydownRenderingContext) (_ : ENode)
    (children : list RenderedNode) : RenderedNode :=
  Host "thead" [] [CElement (Host "tr" [] [arr children])].

Definition table_row (_ : LaydownRenderingContext) (_ : ENode)
    (children : list RenderedNode) : RenderedNode :=
  Host "tr" [] [arr children].

(** [node.customData as TableCellContent] followed by the reads of
    [isHeader] and [align]: a read on [undefined] throws, a read on another
    payload yields [undefined]. *)
Definition table_cell (_ : LaydownRenderingContext) (node : ENode)
    (children : list RenderedNode) : Result RenderedNode :=
  match customData node with
  | NoData => Throw (TypeError "Cannot read properties of undefined")
  | TableCell content =>
      let CellTag := if truthy_bool (isHeader content) then "th" else "td" in
      Ok (Host CellTag [("align", opt_string (align content))] [arr children])
  | _ => Ok (Host "td" [("align", VUndefined)] [arr children])
  end.

(** The destructuring [const { startTag, endTag, tagName } = node.customData]
    throws on [undefined]; on another payload the three names are
    [undefined]. *)
Definition html_paragraph (_ : LaydownRenderingContext) (node : ENode)
    (children : list RenderedNode) : Result RenderedNode :=
  match customData node with
  | NoData => Throw (TypeError "Cannot destructure property of undefined")
  | HtmlParagraph d =>
      let isValidNode :=
        match startTag d, tagName d with
        | None, None => false
        | _, _ => true
        end in
      if negb isValidNode then Ok (Fragment [arr children])
      else
        let htmlString := (nullish (startTag d) "" ++ nullish (endTag d) "")%string in
        let source :=
          if negb (String.eqb htmlString "") then htmlString
          else if negb (String.eqb (nullish (tagName d) "") "")
               then ("<" ++ nullish (tagName d) "" ++ ">")%string
               else "" in
        match deepFilterHtmlNode (parse source) with
        | HString _ => Ok (Fragment [arr children])
        | HArray [] => Ok (Fragment [arr children])
        | HArray (first :: rest) =>
            Ok (Fragment
                  [arr (map (fun x => handleHtmlElementLink x (parseLink options))
                            (replaceChildren first children :: rest))])
        | HElement e =>
            Ok (handleHtmlElementLink (replaceChildren e children) (parseLink options))
        end
  | _ => Ok (Fragment [arr children])
  end.

Definition html_paragraph_text (context : LaydownRenderingContext) (node : ENode)
    : RenderedNode :=
  text context node.

(** [DefaultTemplateNode] and a configured handler are referred to by
    name; the element is not expanded. *)
Definition template (_ : LaydownRenderingContext) (node : ENode) : RenderedNode :=
  let TemplateHandler := nullish (templateHandler options) "DefaultTemplateNode" in
  match customData node with
  | NoData => Fragment []
  | data =>
      Component TemplateHandler
        [("params", VData data); ("options", VOptions options)] []
  end.

Definition emoji (_ : LaydownRenderingContext) (node : ENode) : RenderedNode :=
  Fragment [CText (nullish (literal node) "")].

(* ---------------------------------------------------------------- *)
(** * [LaydownReactRenderer] *)
(* ---------------------------------------------------------------- *)

(** The render methods of the class, by property name, in source order. *)
Definition methods : list (string * RenderFunction) :=
  [ ("text", fun c n _ => Ok (text c n));
    ("softbreak", fun _ _ _ => Ok softbreak_);
    ("linebreak", fun _ _ _ => Ok linebreak);
    ("link", fun c n ch => Ok (link c n ch));
    ("image", fun c n _ => Ok (image c n));
    ("emph", fun c n ch => Ok (emph c n ch));
    ("strong", fun c n ch => Ok (strong c n ch));
    ("html_inline", fun c n _ => Ok (html_inline c n));
    ("html_block", fun c n _ => Ok (html_block c n));
    ("code", fun c n _ => Ok (code c n));
    ("code_block", fun c n _ => Ok (code_block c n));
    ("paragraph", fun c n ch => Ok (paragraph c n ch));
    ("block_quote", fun c n ch => Ok (block_quote c n ch));
    ("item", fun c n ch => Ok (item c n ch));
    ("list", fun c n ch => Ok (list_ c n ch));
    ("heading", fun c n ch => Ok (heading c n ch));
    ("thematic_break", fun _ _ _ => Ok thematic_break);
    ("document", fun c n ch => Ok (document c n ch));
    ("math_block", fun c n _ => Ok (math_block c n));
    ("math_inline", fun c n _ => Ok (math_inline c n));
    ("table", fun c n ch => Ok (table c n ch));
    ("table_head", fun c n ch => Ok (table_head c n ch));
    ("table_row", fun c n ch => Ok (table_row c n ch));
    ("table_cell", table_cell);
    ("html_paragraph", html_paragraph);
    ("html_paragraph_text", fun c n _ => Ok (html_paragraph_text c n));
    ("template", fun c n _ => Ok (template c n));
    ("emoji", fun c n _ => Ok (emoji c n)) ].

(** Property names of the renderer object that are not render methods.
    Two hold objects: its own [options] field and [__proto__].  The others
    hold functions it inherits: [constructor] and the members of
    [Object.prototype]. *)
Definition object_properties : list string := [ "options"; "__proto__" ].

Definition inherited_functions : list string :=
  [ "constructor"; "hasOwnProperty"; "isPrototypeOf";
    "propertyIsEnumerable"; "toString"; "toLocaleString"; "valueOf";
    "__defineGetter__"; "__defineSetter__"; "__lookupGetter__";
    "__lookupSetter__" ].

Definition foreign_properties : list string :=
  object_properties ++ inherited_functions.

Inductive Property : Type :=
| PUndefined
| PMethod (f : RenderFunction)
| PObject
| PInherited (name : string).

Fixpoint find_method (name : string) (ms : list (string * RenderFunction))
    : option RenderFunction :=
  match ms with
  | [] => None
  | (k, f) :: rest => if String.eqb name k then Some f else find_method name rest
  end.

(** [this.inner[type]] *)
Definition inner_property (name : string) : Property :=
  match find_method name methods with
  | Some f => PMethod f
  | None =>
      if existsb (String.eqb name) object_properties then PObject
      else if existsb (String.eqb name) inherited_functions then PInherited name
      else PUndefined
  end.

(** The function returned for a type without a renderer. *)
Definition placeholder (type : string) : RenderFunction :=
  fun _ _ _ =>
    Ok (Fragment [CText "[WARNING: Type "; CText type;
                  CText "'s renderer not found]"]).

(** [ret.bind(this.inner)] for an inherited function, called as a render
    function with [(context, node, children)]: the class constructor cannot
    be called without [new]; [toString] and [toLocaleString] return the
    default tag; [valueOf] returns the receiver; the three tests are asked
    about a key the receiver does not have; the two definers reject [node],
    which is not a function; the two lookups find nothing. *)
Definition bound_inherited (name : string) : RenderFunction :=
  fun _ _ _ =>
    if String.eqb name "constructor" then
      Throw (TypeError "Class constructor cannot be invoked without 'new'")
    else if String.eqb name "toString" || String.eqb name "toLocaleString" then
      Returned (Text "[object Object]")
    else if String.eqb name "valueOf" then Returned Receiver
    else if String.eqb name "hasOwnProperty" || String.eqb name "isPrototypeOf"
            || String.eqb name "propertyIsEnumerable" then
      Returned (Boolean false)
    else if String.eqb name "__defineGetter__" || String.eqb name "__defineSetter__" then
      Throw (TypeError "Expecting function")
    else Returned Undefined.

(** An object has no [bind], so the call [ret.bind] throws; an inherited
    function is bound and returned like a render method. *)
Definition getRenderer (type : string) : Result RenderFunction :=
  match inner_property type with
  | PUndefined => Ok (placeholder type)
  | PMethod ret => Ok ret
  | PObject => Throw (TypeError "ret.bind is not a function")
  | PInherited name => Ok (bound_inherited name)
  end.

Definition stringify (node : ENode) (children : list RenderedNode) : Result string :=
  if String.eqb (type node) "html_block" || String.eqb (type node) "html_inline" then
    Ok (nullish (literal node) "")
  else if String.eqb (type node) "heading" || String.eqb (type node) "paragraph" then
    Ok (deepFilterStringChildren (Fragment [arr children]))
  else Throw (Error "Method not implemented.").

Definition resetChildrenKey (c : list RenderedNode) : list RenderedNode :=
  map (fun n => Fragment [CElement n]) c.

End Renderer.

(* ------------------------------------------------------------------ *)
(** * [ExtendedSyntaxOptions] *)
(* ------------------------------------------------------------------ *)

Module Syntax.

(** The inline handlers imported by the entry point. *)
Inductive InlineHandler : Type :=
| parseInlineMathFence
| parseInlineTemplate
| parseInlineEmoji.

Definition inlineHandlers : list (string * InlineHandler) :=
  [ ("$", parseInlineMathFence);
    ("@", parseInlineTemplate);
    (":", parseInlineEmoji) ].

(** The arguments of the call [compileMaybeSpecialRegExp('$', '|', true)]
    that defines [reMaybeSpecial]; the function itself belongs to the
    parser package. *)
Definition reMaybeSpecial_chars : list string := ["$"; "|"].
Definition reMaybeSpecial_flag : bool := true.

Definition leaders : list string := map fst inlineHandlers.

(** The block handlers and block-start triggers imported by the entry
    point. *)
Inductive BlockHandler : Type :=
| TableHandler
| TableHeadHandler
| TableRowHandler
| TableCellHandler
| MathHandler.

Inductive BlockTrigger : Type :=
| TableTrigger
| MathTrigger.

Definition blockHandlers : list (string * BlockHandler) :=
  [ ("table", TableHandler);
    ("table_head", TableHeadHandler);
    ("table_row", TableRowHandler);
    ("table_cell", TableCellHandler);
    ("math_block", MathHandler) ].

Definition blockStartHandlers : list (Z * list BlockTrigger) :=
  [ ((-1)%Z, [TableTrigger]); (2%Z, [MathTrigger]) ].

Definition block_types : list string := map fst blockHandlers.

Definition handlers_of (c : string) : list InlineHandler :=
  map snd (filter (fun h => String.eqb c (fst h)) inlineHandlers).

End Syntax.

(* ------------------------------------------------------------------ *)
(** * Notions used by the statements *)
(* ------------------------------------------------------------------ *)

(** The first whitespace-separated word of a string: its longest prefix
    without a whitespace character. *)
Fixpoint first_word (s : string) : string :=
  match s with
  | EmptyString => EmptyString
  | String c r => if is_space c then EmptyString else String c (first_word r)
  end.

(** The language named by an info string: its first word, or nothing when
    the info string is absent or the word is empty. *)
Definition info_language (i : option string) : option string :=
  match i with
  | Some s =>
      match first_word s with
      | EmptyString => None
      | w => Some w
      end
  | None => None
  end.

(** The rendering of a code block whose language is [escape] applied to
    the language named by its info string: a math block for [math] and
    [latex], otherwise a code block tagged with the language. *)
Definition code_block_of (escape : string -> string) (node : ENode) : Element :=
  match option_map escape (info_language (info node)) with
  | Some l =>
      if String.eqb l "math" || String.eqb l "latex" then
        Component "MathBlock" [] [lit (literal node)]
      else Component "CodeBlock" [("lang", VString l)] [lit (literal node)]
  | None => Component "CodeBlock" [("lang", VUndefined)] [lit (literal node)]
  end.

(** [this.options.esc?.(w) ?? w] as a function of [w]. *)
Definition escape_of (options : ReactRenderingOptions) : string -> string :=
  match esc options with
  | Some f => f
  | None => fun w => w
  end.

(** A paragraph whose grandparent exists, is a list node and is tight. *)
Definition in_tight_list (node : ENode) : bool :=
  match parent node with
  | Some p =>
      match parent p with
      | Some g => String.eqb (type g) "list" && truthy_bool (listTight g)
      | None => false
      end
  | None => false
  end.

(** Some text is visible below the element. *)
Definition shows_text (e : Element) : Prop :=
  exists s, In s (texts e).

Definition textual_types : list string :=
  ["heading"; "paragraph"; "html_block"; "html_inline"].

Definition html_types : list string := ["html_block"; "html_inline"].

(** The type has a render method. *)
Definition registered `{Imports} (options : ReactRenderingOptions) (type : string) : bool :=
  existsb (String.eqb type) (map fst (methods options)).

(** The name is a property of the renderer object other than a render
    method. *)
Definition foreign (name : string) : bool :=
  existsb (String.eqb name) foreign_properties.

(** [this.options.parseLink?.(src) ?? src] as a function of [src]. *)
Definition parsed_link_of (options : ReactRenderingOptions) : string -> string :=
  match parseLink options with
  | Some f => f
  | None => fun src => src
  end.

(** The string that [html_paragraph] hands to the parser: the start and end
    tags when together they are not empty, else the tag name in angle
    brackets when it is not empty, else the empty string. *)
Definition html_paragraph_source (d : HtmlParagraphDefinition) : string :=
  let htmlString := (nullish (startTag d) "" ++ nullish (endTag d) "")%string in
  if negb (String.eqb htmlString "") then htmlString
  else if negb (String.eqb (nullish (tagName d) "") "")
       then ("<" ++ nullish (tagName d) "" ++ ">")%string
       else "".

(** The render methods declared without a [children] parameter. *)
Definition leaf_types : list string :=
  [ "text"; "softbreak"; "linebreak"; "image"; "html_inline"; "html_block";
    "code"; "code_block"; "thematic_break"; "math_block"; "math_inline";
    "html_paragraph_text"; "template"; "emoji" ].

(* ------------------------------------------------------------------ *)
(** * Sample inputs *)
(* ------------------------------------------------------------------ *)

Module Samples.

(** A deny-list test in the shape the renderer expects: destinations that
    start with [javascript:]. *)
Definition unsafe_javascript (d : option string) : bool :=
  match d with
  | Some s => prefix "javascript:" s
  | None => false
  end.

Definition imports : Imports :=
  mkImports unsafe_javascript (fun h => h) (fun s => HString s)
    (fun e _ => e) (fun e _ => e)
    (fun e => String.concat "" (texts e)) "link.svg" (fun k => k).

(** XML escaping of [&], [<], [>] and the double quote. *)
Fixpoint escapeXml (s : string) : string :=
  match s with
  | EmptyString => EmptyString
  | String c r =>
      (match nat_of_ascii c with
       | 38 => "&amp;"
       | 60 => "&lt;"
       | 62 => "&gt;"
       | 34 => "&quot;"
       | _ => String c EmptyString
       end ++ escapeXml r)%string
  end.

Definition plain : ReactRenderingOptions :=
  mkOptions None None None None None.

Definition safe_mode : ReactRenderingOptions :=
  mkOptions None (Some true) None None None.

Definition escaping : ReactRenderingOptions :=
  mkOptions None None (Some escapeXml) None None.

Definition node (t : string) : ENode :=
  mkNode t None None None None 0 None None None NoData None.

Definition no_macros : LaydownRenderingContext :=
  mkContext (mkStore (fun _ _ => None)) None.

Definition unsafe_link : ENode :=
  mkNode "link" None (Some "javascript:alert(1)") None None 0
    None None None NoData None.

(** A store in which [no-link] and [align-center] are recorded for scope
    [h2] with an empty value. *)
Definition empty_no_link : LaydownRenderingContext :=
  mkContext
    (mkStore (fun scope attr =>
                if String.eqb scope "h2" &&
                   (String.eqb attr "no-link" || String.eqb attr "align-center")
                then Some (MString "") else None))
    (Some "#intro").

(** A store in which [no-link] and [align-center] are recorded with the
    value [on] for the generic scope only. *)
Definition generic_macros : LaydownRenderingContext :=
  mkContext
    (mkStore (fun scope attr =>
                if String.eqb scope "heading" then Some (MString "on") else None))
    (Some "#intro").

Definition h2 : ENode :=
  mkNode "heading" None None None None 2 None None None NoData None.

Definition fenced (i : string) : ENode :=
  mkNode "code_block" (Some "x") None None (Some i) 0
    None None None NoData None.

Definition ordered (start : Z) : ENode :=
  mkNode "list" None None None None 0 (Some "ordered") (Some true)
    (Some start) NoData None.

Definition header_cell : ENode :=
  mkNode "table_cell" None None None None 0 None None None
    (TableCell (mkCell (Some true) (Some "right"))) None.

Definition raw_html : ENode :=
  mkNode "html_inline" (Some "<b>") None None None 0 None None None NoData None.

(** A link to a harmless destination with an empty title. *)
Definition plain_link : ENode :=
  mkNode "link" None (Some "https://example.org") (Some "") None 0
    None None None NoData None.

Definition picture : ENode :=
  mkNode "image" None (Some "a&b.png") None None 0 None None None NoData None.

(** An HTML paragraph whose definition has an end tag only. *)
Definition end_tag_only : ENode :=
  mkNode "html_paragraph" None None None None 0 None None None
    (HtmlParagraph (mkHtmlPara None (Some "</div>") None)) None.

Definition word (s : string) : RenderedNode := Fragment [CText s].

End Samples.

(* ------------------------------------------------------------------ *)
(** * Auxiliary facts *)
(* ------------------------------------------------------------------ *)

Lemma texts_child_elements (l : list Element) :
  flat_map texts_child (map CElement l) = flat_map texts l.
Proof.
  induction l as [|e l IH]; simpl; [reflexivity|].
  now rewrite IH.
Qed.

Lemma toArray_elements (l : list Element) :
  Children_toArray (arr l) = map CElement l.
Proof.
  unfold arr. simpl.
  induction l as [|e l IH]; simpl; [reflexivity|].
  now rewrite IH.
Qed.

Lemma find_method_absent (name : string) (ms : list (string * RenderFunction)) :
  existsb (String.eqb name) (map fst ms) = false -> find_method name ms = None.
Proof.
  induction ms as [|[k f] ms IH]; simpl; [reflexivity|].
  destruct (String.eqb name k); simpl; [discriminate|exact IH].
Qed.

Lemma find_method_present (name : string) (ms : list (string * RenderFunction)) :
  existsb (String.eqb name) (map fst ms) = true -> exists f, find_method name ms = Some f.
Proof.
  induction ms as [|[k f] ms IH]; simpl; [discriminate|].
  destruct (String.eqb name k); simpl; [intros _; now exists f|exact IH].
Qed.

Lemma append_assoc (a b c : string) : ((a ++ b) ++ c = a ++ (b ++ c))%string.
Proof.
  induction a as [|x a IH]; simpl; [reflexivity|now rewrite IH].
Qed.

Lemma append_empty_r (a : string) : (a ++ "")%string = a.
Proof.
  induction a as [|x a IH]; simpl; [reflexivity|now rewrite IH].
Qed.

Lemma split_from_head (s cur : string) :
  hd EmptyString (split_from false cur s) = (cur ++ first_word s)%string.
Proof.
  revert cur.
  induction s as [|c r IH]; intros cur; simpl.
  - now rewrite append_empty_r.
  - destruct (is_space c); simpl.
    + now rewrite append_empty_r.
    + rewrite IH, append_assoc. reflexivity.
Qed.

Lemma split_ws_nonempty (s : string) : split_ws s <> [].
Proof.
  unfold split_ws. generalize false, EmptyString.
  induction s as [|c r IH]; intros b cur; simpl; [discriminate|].
  destruct (is_space c); [destruct b|]; try apply IH; discriminate.
Qed.

Lemma split_ws_first (s : string) :
  exists rest, split_ws s = first_word s :: rest.
Proof.
  pose proof (split_from_head s EmptyString) as H.
  pose proof (split_ws_nonempty s) as Hne.
  unfold split_ws in *.
  destruct (split_from false "" s) as [|w rest]; [congruence|].
  simpl in H. subst w. now exists rest.
Qed.

(* ------------------------------------------------------------------ *)
(** * Dispatch and textual extraction *)
(* ------------------------------------------------------------------ *)

Section Dispatch.

Context {imports : Imports}.
Variable options : ReactRenderingOptions.

Lemma inner_property_unregistered (type : string) :
  registered options type = false ->
  foreign type = false ->
  inner_property options type = PUndefined.
Proof.
  intros Hreg Hfor. unfold inner_property.
  rewrite (find_method_absent _ _ Hreg).
  unfold foreign, foreign_properties in Hfor.
  rewrite existsb_app in Hfor. apply orb_false_elim in Hfor.
  destruct Hfor as [Hobj Hfun]. now rewrite Hobj, Hfun.
Qed.

Lemma inner_property_registered (type : string) :
  registered options type = true ->
  exists f, inner_property options type = PMethod f.
Proof.
  intros Hreg. unfold inner_property.
  destruct (find_method_present _ _ Hreg) as [f Hf].
  exists f. now rewrite Hf.
Qed.

Lemma registered_not_foreign (type : string) :
  foreign type = true -> registered options type = false.
Proof.
  unfold foreign, foreign_properties, object_properties, inherited_functions.
  simpl. rewrite !orb_true_iff, !String.eqb_eq.
  intros H. repeat (destruct H as [->|H]; [reflexivity|]). discriminate H.
Qed.

(** C1.  The claim fails on tags that name another property of the
    renderer object.  No render function is registered for [options], yet
    [getRenderer] throws on it, because the property holds the options
    object, which is not [undefined] and has no [bind].  None is registered
    for [toString] either, and there [getRenderer] returns the bound inherited
    function, which returns the text [[object Object]] and never the
    placeholder naming the type. *)
Theorem getRenderer_foreign_property :
  registered options "options" = false /\
  getRenderer options "options" = Throw (TypeError "ret.bind is not a function") /\
  registered options "toString" = false /\
  exists render,
    getRenderer options "toString" = Ok render /\
    forall context node children,
      render context node children = Returned (Text "[object Object]") /\
      render context node children <> placeholder "toString" context node children.
Proof.
  split; [reflexivity|]. split; [reflexivity|]. split; [reflexivity|].
  exists (bound_inherited "toString"). split; [reflexivity|].
  intros context node children. split; [reflexivity|discriminate].
Qed.

(** X17.  For a tag that names neither a render method nor another property
    of the renderer object, [getRenderer] does not throw: it returns a
    function that, whatever it is called with, returns a fragment whose text
    names the tag. *)
Theorem getRenderer_placeholder_for_unknown_tag (type_ : string) :
  registered options type_ = false ->
  foreign type_ = false ->
  exists render,
    getRenderer options type_ = Ok render /\
    forall context node children,
      render context node children =
        Ok (Fragment [CText "[WARNING: Type "; CText type_;
                      CText "'s renderer not found]"]).
Proof.
  intros Hreg Hfor. exists (placeholder type_). split; [|reflexivity].
  unfold getRenderer. now rewrite (inner_property_unregistered _ Hreg Hfor).
Qed.


Lemma in_textual_cases (t : string) :
  In t textual_types <->
  (String.eqb t "html_block" || String.eqb t "html_inline" = true) \/
  (String.eqb t "heading" || String.eqb t "paragraph" = true).
Proof.
  unfold textual_types. simpl.
  rewrite !orb_true_iff, !String.eqb_eq.
  intuition (subst; auto).
Qed.

(** C3.  [stringify] returns a string exactly for the node types
    [heading], [paragraph], [html_block] and [html_inline]; for the two
    HTML types the string is the node's literal, or the empty string when
    the literal is absent; for every other type it throws. *)
Theorem stringify_textual_only (node : ENode) (children : list RenderedNode) :
  ((exists s, stringify node children = Ok s) <-> In (type node) textual_types) /\
  (In (type node) html_types ->
     stringify node children = Ok (nullish (literal node) "")) /\
  (~ In (type node) textual_types ->
     stringify node children = Throw (Error "Method not implemented.")).
Proof.
  unfold stringify.
  pose proof (in_textual_cases (type node)) as Hcases.
  destruct (String.eqb (type node) "html_block" || String.eqb (type node) "html_inline")
    eqn:Hhtml.
  - repeat split.
    + intros _. apply Hcases. now left.
    + intros _. now eexists.
    + intros H. exfalso. apply H, Hcases. now left.
  - destruct (String.eqb (type node) "heading" || String.eqb (type node) "paragraph")
      eqn:Htext.
    + repeat split.
      * intros _. apply Hcases. now right.
      * intros _. now eexists.
      * unfold html_types. simpl. intros [H|[H|[]]]; symmetry in H;
          apply String.eqb_eq in H; rewrite H in Hhtml;
          rewrite ?orb_true_r in Hhtml; discriminate.
      * intros H. exfalso. apply H, Hcases. now right.
    + repeat split.
      * intros [s Hs]. discriminate.
      * intros H. apply Hcases in H. destruct H; discriminate.
      * unfold html_types. simpl. intros [H|[H|[]]]; symmetry in H;
          apply String.eqb_eq in H; rewrite H in Hhtml;
          rewrite ?orb_true_r in Hhtml; discriminate.
Qed.

End Dispatch.

(* ------------------------------------------------------------------ *)
(** * Render methods *)
(* ------------------------------------------------------------------ *)

Section Methods.

Context {imports : Imports}.
Variable options : ReactRenderingOptions.
Variable context : LaydownRenderingContext.

(** C2, as amended.  For a link whose destination matches the unsafe
    pattern: in safe mode the rendered anchor has no [href] attribute and
    its only text is the text of its children, no notice being added, while
    the image renderer returns the notice
    [[ERROR: POTENTIALLY UNSAFE LINK OMITTED]]; outside safe mode the
    [href] is the destination, verbatim. *)
Theorem link_safe_mode (node : ENode) (children : list RenderedNode) (d : string) :
  destination node = Some d ->
  potentiallyUnsafe (Some d) = true ->
  (safe options = Some true ->
     tag_of (link options context node children) = Some "a" /\
     has_attribute "href" (link options context node children) = false /\
     texts (link options context node children) = flat_map texts children /\
     image options context node =
       Host "span" [] [CText "[ERROR: POTENTIALLY UNSAFE LINK OMITTED]"]) /\
  (truthy_bool (safe options) = false ->
     get_prop "href" (props_of (link options context node children)) = VString d).
Proof.
  intros Hd Hunsafe. split.
  - intros Hsafe. unfold link, image, has_attribute.
    rewrite Hd, Hunsafe, Hsafe. simpl.
    rewrite texts_child_elements, app_nil_r. auto.
  - intros Hsafe. unfold link. rewrite Hd, Hsafe. reflexivity.
Qed.

(** C8.  In safe mode [html_inline] returns the fixed notice
    [[ERROR: RAW HTML OMITTED]] whatever the literal; otherwise it returns
    the parsed and filtered literal, the empty string standing for an
    absent one.  [html_block] is [html_inline]. *)
Theorem html_inline_safe_mode (node : ENode) :
  (safe options = Some true ->
     html_inline options context node = Fragment [CText "[ERROR: RAW HTML OMITTED]"]) /\
  (truthy_bool (safe options) = false ->
     html_inline options context node =
       Fragment [html_child (deepFilterHtmlNode (parse (nullish (literal node) "")))]) /\
  html_block options context node = html_inline options context node.
Proof.
  unfold html_block, html_inline. repeat split.
  - intros H. now rewrite H.
  - intros H. now rewrite H.
Qed.

Lemma code_block_lang_escaped (node : ENode) :
  code_block_lang options node =
    option_map (escape_of options) (info_language (info node)).
Proof.
  unfold code_block_lang, info_language, escape_of.
  destruct (info node) as [s|]; [|reflexivity].
  destruct s as [|c r]; [reflexivity|].
  change (truthy_string (Some (String c r))) with true. cbv iota.
  unfold nullish.
  destruct (split_ws_first (String c r)) as [rest Hsplit].
  rewrite Hsplit.
  destruct (first_word (String c r)) as [|a w]; [reflexivity|].
  cbn [String.length Nat.ltb Nat.leb option_map].
  destruct (esc options); reflexivity.
Qed.

(** C9, as amended.  The language of a code block is the first
    whitespace-separated word of its info string passed through the [esc]
    option when one is configured; [math] and [latex] give a math block of
    the literal, any other language a code block tagged with it, and an
    absent info string or an empty first word a code block without
    language. *)
Theorem code_block_language (node : ENode) :
  code_block options context node = code_block_of (escape_of options) node.
Proof.
  unfold code_block, code_block_of.
  rewrite code_block_lang_escaped.
  destruct (option_map (escape_of options) (info_language (info node))) as [l|];
    simpl; [|reflexivity].
  destruct (String.eqb l "math" || String.eqb l "latex"); reflexivity.
Qed.

(** C5.  A paragraph whose grandparent exists, is a list node and is tight
    renders as its children alone; every other paragraph is wrapped in a
    [p] element. *)
Theorem paragraph_tightness (node : ENode) (children : list RenderedNode) :
  paragraph context node children =
    if in_tight_list node then Fragment [arr children]
    else Host "p" [] [arr children].
Proof.
  unfold paragraph, grandparent_of, in_tight_list.
  destruct (parent node) as [p|]; [|reflexivity].
  destruct (parent p) as [g|]; [|reflexivity].
  destruct (String.eqb (type g) "list"); simpl; [|reflexivity].
  destruct (truthy_bool (listTight g)); reflexivity.
Qed.

(** C6.  A bullet list renders as [ul] without a [start] attribute; any
    other list renders as [ol], which has a [start] attribute exactly when
    the start value is defined and is not 1, and the attribute is then that
    value. *)
Theorem list_start_attribute (node : ENode) (children : list RenderedNode) :
  (listType node = Some "bullet" ->
     list_ context node children = Host "ul" [] [arr children] /\
     has_attribute "start" (list_ context node children) = false) /\
  (listType node <> Some "bullet" ->
     tag_of (list_ context node children) = Some "ol" /\
     children_of (list_ context node children) = [arr children] /\
     (has_attribute "start" (list_ context node children) = true <->
        exists z, listStart node = Some z /\ z <> 1%Z) /\
     (forall z, listStart node = Some z -> z <> 1%Z ->
        get_prop "start" (props_of (list_ context node children)) = VNumber z)).
Proof.
  split.
  - intros H. unfold list_. rewrite H. split; reflexivity.
  - intros H.
    assert (Hol : list_ context node children =
              Host "ol"
                [("start",
                  match listStart node with
                  | Some z => if negb (Z.eqb z 1) then VNumber z else VUndefined
                  | None => VUndefined
                  end)] [arr children]).
    { unfold list_. destruct (listType node) as [t|]; [|reflexivity].
      destruct (string_dec t "bullet") as [->|Hne]; [congruence|].
      destruct t as [|[[] [] [] [] [] [] [] []] t]; try reflexivity.
      repeat (destruct t as [|[[] [] [] [] [] [] [] []] t]; try reflexivity).
      congruence. }
    rewrite Hol. unfold has_attribute. simpl.
    repeat split.
    + destruct (listStart node) as [z|]; [|discriminate].
      destruct (Z.eqb_spec z 1); simpl; [discriminate|].
      intros _. now exists z.
    + intros [z [Hz Hne]]. rewrite Hz.
      destruct (Z.eqb_spec z 1); simpl; [contradiction|reflexivity].
    + intros z Hz Hne. rewrite Hz.
      destruct (Z.eqb_spec z 1); simpl; [contradiction|reflexivity].
Qed.

Lemma heading_macro_order (HeadingTag attr : string) :
  heading_macro context HeadingTag attr =
    match check (macroStore context) HeadingTag attr with
    | Some v => Some v
    | None => check (macroStore context) "heading" attr
    end.
Proof. reflexivity. Qed.

(** X19.  A heading of level [n] looks [align-center] and [no-link] up
    under its concrete tag [hn] first and under [heading] second, the first
    defined value winning.  Its style is [textAlign: center] when
    [align-center] resolves to a defined value and absent otherwise.  Its
    anchor contains no link when [no-link] resolves to a non-empty string,
    and the link to the section when [no-link] resolves to nothing or to
    the empty string. *)
Theorem heading_macro_resolution (node : ENode) (children : list RenderedNode) :
  let HeadingTag := ("h" ++ number_to_string (level node))%string in
  let href := nullish (navHref context) "#null" in
  let resolved attr :=
    match check (macroStore context) HeadingTag attr with
    | Some v => Some v
    | None => check (macroStore context) "heading" attr
    end in
  tag_of (heading context node children) = Some HeadingTag /\
  (resolved "align-center" <> None ->
     get_prop "style" (props_of (heading context node children)) =
       VStyle [("textAlign", "center")]) /\
  (resolved "align-center" = None ->
     has_attribute "style" (heading context node children) = false) /\
  exists anchor,
    children_of (heading context node children) = [CElement anchor; arr children] /\
    ((exists a w, resolved "no-link" = Some (MString (String a w))) ->
       hosts "a" anchor = []) /\
    (resolved "no-link" = None \/ resolved "no-link" = Some (MString "") ->
       hosts "a" anchor = [[("href", VString href)]]).
Proof.
  intros HeadingTag href resolved.
  unfold heading. fold HeadingTag. fold href.
  rewrite !heading_macro_order. fold (resolved "align-center").
  fold (resolved "no-link").
  split; [reflexivity|]. split; [|split].
  - simpl. destruct (resolved "align-center"); simpl; congruence.
  - intros H. unfold has_attribute. simpl. now rewrite H.
  - eexists. split; [reflexivity|].
    unfold TitleAnchor. simpl. split.
    + intros [a [w H]]. rewrite H. reflexivity.
    + intros [H|H]; rewrite H; reflexivity.
Qed.

(** C10.  [table] puts its first rendered child in the head position and
    all the others, in order, in one [tbody]; [table_head] wraps its
    children in one [tr] inside [thead]; [table_cell] renders [th] when the
    [isHeader] flag of its cell content is set and [td] otherwise, with the
    alignment of that content. *)
Theorem table_layout (node : ENode) (c0 : RenderedNode) (rest children : list RenderedNode) :
  table context node (c0 :: rest) =
    Host "table" [] [CElement c0; CElement (Host "tbody" [] [arr rest])] /\
  table_head context node children =
    Host "thead" [] [CElement (Host "tr" [] [arr children])] /\
  (forall content,
     customData node = TableCell content ->
     table_cell context node children =
       Ok (Host (if truthy_bool (isHeader content) then "th" else "td")
                [("align", opt_string (align content))] [arr children])).
Proof.
  split; [|split].
  - unfold table. rewrite toArray_elements. reflexivity.
  - reflexivity.
  - intros content H. unfold table_cell. rewrite H. reflexivity.
Qed.

End Methods.

(* ------------------------------------------------------------------ *)
(** * The claims on concrete inputs *)
(* ------------------------------------------------------------------ *)

Lemma getRenderer_placeholder_for_unknown_tag_witness :
  exists render,
    getRenderer (imports := Samples.imports) Samples.plain "custom_block" = Ok render /\
    forall context node children,
      render context node children =
        Ok (Fragment [CText "[WARNING: Type "; CText "custom_block";
                      CText "'s renderer not found]"]).
Proof.
  apply (getRenderer_placeholder_for_unknown_tag (imports := Samples.imports)
           Samples.plain "custom_block").
  - reflexivity.
  - reflexivity.
Defined.


Lemma stringify_textual_only_witness :
  stringify (imports := Samples.imports) Samples.raw_html [] = Ok "<b>" /\
  stringify (imports := Samples.imports) (Samples.node "table") [] =
    Throw (Error "Method not implemented.").
Proof.
  split.
  - apply (proj1 (proj2 (stringify_textual_only
                           (imports := Samples.imports) Samples.raw_html []))).
    simpl. auto.
  - apply (proj2 (proj2 (stringify_textual_only
                           (imports := Samples.imports) (Samples.node "table") []))).
    simpl. intros [H|[H|[H|[H|[]]]]]; discriminate H.
Defined.

(** A link to [javascript:alert(1)] without children, rendered in safe
    mode, shows no text at all: there is no omission notice. *)
Lemma link_safe_mode_without_notice :
  potentiallyUnsafe (Imports := Samples.imports)
    (destination Samples.unsafe_link) = true /\
  safe Samples.safe_mode = Some true /\
  ~ shows_text (link (imports := Samples.imports) Samples.safe_mode
                  Samples.no_macros Samples.unsafe_link []).
Proof.
  split; [reflexivity|]. split; [reflexivity|].
  intros [s Hs]. exact Hs.
Qed.

Lemma link_safe_mode_witness :
  has_attribute "href"
    (link (imports := Samples.imports) Samples.safe_mode Samples.no_macros
       Samples.unsafe_link []) = false /\
  get_prop "href"
    (props_of (link (imports := Samples.imports) Samples.plain Samples.no_macros
                 Samples.unsafe_link [])) = VString "javascript:alert(1)".
Proof.
  pose proof (link_safe_mode (imports := Samples.imports) Samples.safe_mode
                Samples.no_macros Samples.unsafe_link []
                "javascript:alert(1)" eq_refl eq_refl) as Hsafe.
  pose proof (link_safe_mode (imports := Samples.imports) Samples.plain
                Samples.no_macros Samples.unsafe_link []
                "javascript:alert(1)" eq_refl eq_refl) as Hplain.
  split.
  - apply (proj1 Hsafe). reflexivity.
  - apply (proj2 Hplain). reflexivity.
Defined.

(** C4.  The claim fails when the resolved value is defined but falsy.
    With [no-link] and [align-center] recorded for [h2] with an empty value,
    both lookups resolve to that defined value; the heading is centred, the
    empty value counting as set there, and yet it still carries the link. *)
Lemma heading_no_link_empty_value :
  heading_macro Samples.empty_no_link "h2" "no-link" = Some (MString "") /\
  heading_macro Samples.empty_no_link "h2" "align-center" = Some (MString "") /\
  get_prop "style"
    (props_of (heading (imports := Samples.imports) Samples.empty_no_link
                 Samples.h2 [])) = VStyle [("textAlign", "center")] /\
  hosts "a" (heading (imports := Samples.imports) Samples.empty_no_link
               Samples.h2 []) = [[("href", VString "#intro")]].
Proof. repeat split. Qed.

Lemma heading_macro_resolution_witness :
  get_prop "style"
    (props_of (heading (imports := Samples.imports) Samples.generic_macros
                 Samples.h2 [])) = VStyle [("textAlign", "center")] /\
  exists anchor,
    children_of (heading (imports := Samples.imports) Samples.generic_macros
                   Samples.h2 []) = [CElement anchor; arr []] /\
    hosts "a" anchor = [].
Proof.
  destruct (heading_macro_resolution (imports := Samples.imports)
              Samples.generic_macros Samples.h2 [])
    as (_ & Hstyle & _ & anchor & Hchildren & Hset & _).
  split.
  - apply Hstyle. discriminate.
  - exists anchor. split; [exact Hchildren|].
    apply Hset. exists "o"%char, "n". reflexivity.
Defined.

Lemma html_inline_safe_mode_witness :
  html_inline (imports := Samples.imports) Samples.safe_mode Samples.no_macros
    Samples.raw_html = Fragment [CText "[ERROR: RAW HTML OMITTED]"] /\
  html_inline (imports := Samples.imports) Samples.plain Samples.no_macros
    Samples.raw_html = Fragment [CText "<b>"].
Proof.
  split.
  - apply (proj1 (html_inline_safe_mode (imports := Samples.imports)
                    Samples.safe_mode Samples.no_macros Samples.raw_html)).
    reflexivity.
  - apply (proj1 (proj2 (html_inline_safe_mode (imports := Samples.imports)
                           Samples.plain Samples.no_macros Samples.raw_html))).
    reflexivity.
Defined.

(** With XML escaping configured, the info string [R&D notes] names the
    language [R&D] but the code block is tagged [R&amp;D]. *)
Lemma code_block_language_not_first_word :
  info_language (info (Samples.fenced "R&D notes")) = Some "R&D" /\
  code_block Samples.escaping Samples.no_macros (Samples.fenced "R&D notes") =
    Component "CodeBlock" [("lang", VString "R&amp;D")] [CText "x"] /\
  code_block Samples.escaping Samples.no_macros (Samples.fenced "R&D notes") <>
    code_block_of (fun w => w) (Samples.fenced "R&D notes").
Proof.
  split; [reflexivity|]. split; [reflexivity|].
  vm_compute. discriminate.
Qed.

Lemma list_start_attribute_witness :
  has_attribute "start" (list_ Samples.no_macros (Samples.ordered 1) []) = false /\
  get_prop "start" (props_of (list_ Samples.no_macros (Samples.ordered 5) [])) =
    VNumber 5.
Proof.
  split.
  - destruct (proj2 (list_start_attribute Samples.no_macros (Samples.ordered 1) []))
      as (_ & _ & Hiff & _).
    + simpl. discriminate.
    + destruct (has_attribute "start" (list_ Samples.no_macros (Samples.ordered 1) []))
        eqn:E; [|reflexivity].
      destruct (proj1 Hiff eq_refl) as [z [Hz Hne]].
      simpl in Hz. injection Hz as <-. now contradiction Hne.
  - destruct (proj2 (list_start_attribute Samples.no_macros (Samples.ordered 5) []))
      as (_ & _ & _ & Hval).
    + simpl. discriminate.
    + apply Hval; [reflexivity|lia].
Defined.

Lemma table_layout_witness :
  table_cell Samples.no_macros Samples.header_cell [] =
    Ok (Host "th" [("align", VString "right")] [arr []]).
Proof.
  apply (proj2 (proj2 (table_layout Samples.no_macros Samples.header_cell
                         (Fragment []) [] []))
           (mkCell (Some true) (Some "right"))).
  reflexivity.
Defined.

(* ------------------------------------------------------------------ *)
(** * The inline handler table *)
(* ------------------------------------------------------------------ *)

Lemma inline_leaders : Syntax.leaders = ["$"; "@"; ":"].
Proof. reflexivity. Qed.

Lemma inline_leaders_distinct : NoDup Syntax.leaders.
Proof.
  unfold Syntax.leaders. simpl.
  repeat constructor; simpl; intuition discriminate.
Qed.

(** X16.  Whatever the character, the inline handler table holds at most
    one handler for it. *)
Lemma one_handler_per_leader (c : string) :
  (length (Syntax.handlers_of c) <= 1)%nat.
Proof.
  unfold Syntax.handlers_of, Syntax.inlineHandlers. simpl.
  destruct (String.eqb_spec c "$"), (String.eqb_spec c "@"),
    (String.eqb_spec c ":"); subst; simpl; try lia; discriminate.
Qed.

(** Of the three leading characters only [$] is among the characters handed
    to [compileMaybeSpecialRegExp]. *)
Lemma leaders_given_to_maybe_special :
  filter (fun c => existsb (String.eqb c) Syntax.reMaybeSpecial_chars)
    Syntax.leaders = ["$"].
Proof. reflexivity. Qed.

(* ------------------------------------------------------------------ *)
(** * Further properties of the render methods *)
(* ------------------------------------------------------------------ *)

Lemma first_word_no_space (s : string) (c : ascii) :
  In c (list_ascii_of_string (first_word s)) -> is_space c = false.
Proof.
  induction s as [|a r IH]; simpl; [contradiction|].
  destruct (is_space a) eqn:Ha; simpl; [contradiction|].
  intros [<-|H]; [exact Ha|now apply IH].
Qed.

Lemma first_word_prefix (s : string) : prefix (first_word s) s = true.
Proof.
  induction s as [|a r IH]; simpl; [reflexivity|].
  destruct (is_space a); simpl; [reflexivity|].
  destruct (ascii_dec a a); [exact IH|congruence].
Qed.

Lemma tl_map {A B : Type} (f : A -> B) (l : list A) : tl (map f l) = map f (tl l).
Proof. destruct l; reflexivity. Qed.

Section MoreMethods.

Context {imports : Imports}.
Variable options : ReactRenderingOptions.
Variable context : LaydownRenderingContext.

Lemma list_shape (node : ENode) (children : list RenderedNode) :
  list_ context node children = Host "ul" [] [arr children] \/
  exists start, list_ context node children = Host "ol" [("start", start)] [arr children].
Proof.
  unfold list_.
  set (start := match listStart node with
                | Some z => if negb (Z.eqb z 1) then VNumber z else VUndefined
                | None => VUndefined
                end).
  destruct (listType node) as [t|]; [|right; now exists start].
  destruct (string_dec t "bullet") as [->|Hne]; [now left|].
  right. exists start.
  destruct t as [|[[] [] [] [] [] [] [] []] t]; try reflexivity.
  repeat (destruct t as [|[[] [] [] [] [] [] [] []] t]; try reflexivity).
  congruence.
Qed.

(** X1.  The anchor rendered for a link has an [href] attribute exactly
    when the destination is defined and is not withheld by safe mode, and
    the attribute is then the destination; it has a [title] attribute
    exactly when the node's title is a non-empty string. *)
Theorem link_attributes (node : ENode) (children : list RenderedNode) :
  (has_attribute "href" (link options context node children) = true <->
     destination node <> None /\
     truthy_bool (safe options) && potentiallyUnsafe (destination node) = false) /\
  (forall d, destination node = Some d ->
     truthy_bool (safe options) && potentiallyUnsafe (destination node) = false ->
     get_prop "href" (props_of (link options context node children)) = VString d) /\
  (has_attribute "title" (link options context node children) = true <->
     exists t, title node = Some t /\ t <> "") /\
  (forall t, title node = Some t -> t <> "" ->
     get_prop "title" (props_of (link options context node children)) = VString t).
Proof.
  unfold link, has_attribute. simpl.
  destruct (truthy_bool (safe options) && potentiallyUnsafe (destination node));
    simpl; (split; [|split; [|split]]).
  - split; [discriminate|]. intros [_ H]. discriminate.
  - intros d _ H. discriminate.
  - destruct (title node) as [[|a w]|]; simpl; split; try discriminate;
      try reflexivity.
    + intros [t [H Hne]]. injection H as <-. now contradiction Hne.
    + intros _. eexists. split; [reflexivity|discriminate].
    + intros [t [H _]]. discriminate.
  - intros t Ht Hne. rewrite Ht. destruct t; [now contradiction Hne|reflexivity].
  - destruct (destination node); simpl; split; try discriminate.
    + intros _. split; [discriminate|reflexivity].
    + reflexivity.
    + intros [H _]. now contradiction H.
  - intros d Hd _. rewrite Hd. reflexivity.
  - destruct (title node) as [[|a w]|]; simpl; split; try discriminate;
      try reflexivity.
    + intros [t [H Hne]]. injection H as <-. now contradiction Hne.
    + intros _. eexists. split; [reflexivity|discriminate].
    + intros [t [H _]]. discriminate.
  - intros t Ht Hne. rewrite Ht. destruct t; [now contradiction Hne|reflexivity].
Qed.

(** X2.  [image] returns the omission notice exactly when safe mode is on
    and the destination is unsafe.  In every other case it returns an [img]
    whose [src] is always defined: the destination, or the empty string when
    there is none, passed through [esc] first and [parseLink] second. *)
Theorem image_notice_or_source (node : ENode) :
  (image options context node =
     Host "span" [] [CText "[ERROR: POTENTIALLY UNSAFE LINK OMITTED]"] <->
   truthy_bool (safe options) && potentiallyUnsafe (destination node) = true) /\
  (truthy_bool (safe options) && potentiallyUnsafe (destination node) = false ->
   image options context node =
     Host "img"
       [("src", VString (parsed_link_of options
                           (escape_of options (nullish (destination node) ""))))] []).
Proof.
  unfold image, parsed_link_of, escape_of.
  destruct (truthy_bool (safe options) && potentiallyUnsafe (destination node)).
  - split; [split; reflexivity|discriminate].
  - split; [split; discriminate|].
    intros _. destruct (esc options), (parseLink options); reflexivity.
Qed.

(** X3.  The render methods that wrap their children add no text of their
    own and keep the text of the children in order: this holds for [link],
    [emph], [strong], [paragraph], [block_quote], [item], [list],
    [heading], [document], [table], [table_head] and [table_row]. *)
Theorem wrappers_preserve_text (node : ENode) (children : list RenderedNode) :
  texts (link options context node children) = flat_map texts children /\
  texts (emph context node children) = flat_map texts children /\
  texts (strong context node children) = flat_map texts children /\
  texts (paragraph context node children) = flat_map texts children /\
  texts (block_quote context node children) = flat_map texts children /\
  texts (item context node children) = flat_map texts children /\
  texts (list_ context node children) = flat_map texts children /\
  texts (heading context node children) = flat_map texts children /\
  texts (document context node children) = flat_map texts children /\
  texts (table context node children) = flat_map texts children /\
  texts (table_head context node children) = flat_map texts children /\
  texts (table_row context node children) = flat_map texts children.
Proof.
  assert (Hwrap : forall cs, flat_map texts_child [arr cs] = flat_map texts cs).
  { intros cs. simpl. now rewrite texts_child_elements, app_nil_r. }
  repeat split; try (simpl; rewrite texts_child_elements, ?app_nil_r; reflexivity).
  - unfold paragraph.
    destruct (grandparent_of node) as [g|]; [|apply Hwrap].
    destruct (String.eqb (type g) "list"); [|apply Hwrap].
    destruct (truthy_bool (listTight g)); apply Hwrap.
  - destruct (list_shape node children) as [H|[start H]]; rewrite H; apply Hwrap.
  - unfold heading, TitleAnchor. simpl.
    destruct (macro_truthy _); simpl;
      now rewrite texts_child_elements, app_nil_r.
  - unfold table. rewrite toArray_elements.
    destruct children as [|c rest]; [reflexivity|].
    simpl. now rewrite texts_child_elements, !app_nil_r.
Qed.

(** X4.  When the section anchor of the context is [#s] (or is absent, in
    which case it is [#null]), the target element of the heading has id [s]
    and the link, when it is shown, points at exactly that target. *)
Theorem heading_link_targets_anchor (node : ENode) (children : list RenderedNode)
    (s : string) :
  nullish (navHref context) "#null" = String "#"%char s ->
  exists anchor,
    children_of (heading context node children) = [CElement anchor; arr children] /\
    hosts "span" anchor =
      [[("className", VString (styles "title-id")); ("id", VString s)]] /\
    (hosts "a" anchor = [] \/ hosts "a" anchor = [[("href", VString (String "#"%char s))]]).
Proof.
  intros Href. unfold heading. rewrite Href.
  eexists. split; [reflexivity|].
  unfold TitleAnchor. simpl.
  destruct (macro_truthy _); simpl; split; auto.
Qed.


End MoreMethods.

Section CodeAndTables.

Context {imports : Imports}.
Variable options : ReactRenderingOptions.
Variable context : LaydownRenderingContext.

(** X6.  When no [esc] is configured, the language of a code block, if
    there is one, is not empty, contains no whitespace character, and is a
    prefix of the info string. *)
Theorem code_block_lang_plain (node : ENode) (l : string) :
  esc options = None ->
  code_block_lang options node = Some l ->
  l <> "" /\
  (forall c, In c (list_ascii_of_string l) -> is_space c = false) /\
  exists i, info node = Some i /\ prefix l i = true.
Proof.
  intros Hesc. rewrite code_block_lang_escaped.
  unfold escape_of, info_language. rewrite Hesc.
  destruct (info node) as [i|]; [|discriminate].
  pose proof (first_word_no_space i) as Hspace.
  pose proof (first_word_prefix i) as Hprefix.
  destruct (first_word i) as [|a w]; [discriminate|].
  simpl. intros H. injection H as <-.
  split; [discriminate|]. split; [exact Hspace|].
  exists i. split; [reflexivity|exact Hprefix].
Qed.

(** X7.  An info string that begins with a whitespace character gives a
    code block without language, whatever follows the whitespace and
    whatever [esc] is. *)
Theorem code_block_leading_space (node : ENode) (c : ascii) (r : string) :
  info node = Some (String c r) ->
  is_space c = true ->
  code_block options context node =
    Component "CodeBlock" [("lang", VUndefined)] [lit (literal node)].
Proof.
  intros Hinfo Hc. unfold code_block.
  rewrite code_block_lang_escaped, Hinfo.
  unfold info_language. simpl. rewrite Hc. reflexivity.
Qed.

(** X8.  A code block whose info string names a language that [esc] (when
    configured) maps to [math] or [latex] renders exactly as [math_block]
    renders the same node, whatever else the info string contains. *)
Theorem code_block_math_is_math_block (node : ENode) (l : string) :
  info_language (info node) = Some l ->
  escape_of options l = "math" \/ escape_of options l = "latex" ->
  code_block options context node = math_block context node.
Proof.
  intros Hl Hmath. unfold code_block.
  rewrite code_block_lang_escaped, Hl. simpl.
  destruct Hmath as [-> | ->]; reflexivity.
Qed.

(** X15.  Only the first word of the info string matters: two code blocks
    with the same literal whose info strings name the same language render
    the same. *)
Theorem code_block_first_word_only (node other : ENode) :
  info_language (info node) = info_language (info other) ->
  literal node = literal other ->
  code_block options context node = code_block options context other.
Proof.
  intros Hinfo Hlit. unfold code_block.
  rewrite !code_block_lang_escaped, Hinfo, Hlit. reflexivity.
Qed.

(** X9.  [table] never fails on a short list of children: the head position
    holds the first child, or nothing when there is none, and there is always
    one [tbody], holding the children after the first. *)
Theorem table_any_children (node : ENode) (children : list RenderedNode) :
  table context node children =
    Host "table" []
      [match children with
       | [] => CEmpty
       | c :: _ => CElement c
       end;
       CElement (Host "tbody" [] [arr (tl children)])].
Proof.
  unfold table. rewrite toArray_elements, tl_map.
  destruct children; reflexivity.
Qed.

(** X10.  [table_cell] throws exactly when the node has no custom data.
    When it returns, the element is [th] exactly when the custom data is a
    cell content whose [isHeader] is [true], else [td], and its text is the
    text of the children. *)
Theorem table_cell_result (node : ENode) (children : list RenderedNode) :
  ((exists e, table_cell context node children = Throw e) <->
     customData node = NoData) /\
  (forall out, table_cell context node children = Ok out ->
     (tag_of out = Some "th" <->
        exists content, customData node = TableCell content /\
                        isHeader content = Some true) /\
     (tag_of out = Some "th" \/ tag_of out = Some "td") /\
     texts out = flat_map texts children).
Proof.
  assert (Hwrap : forall cs, flat_map texts_child [arr cs] = flat_map texts cs).
  { intros cs. simpl. now rewrite texts_child_elements, app_nil_r. }
  unfold table_cell.
  destruct (customData node) as [|content|d|p].
  - split; [split; [reflexivity|now eexists]|]. intros out H. discriminate.
  - split; [split; [intros [e H]; discriminate|discriminate]|].
    intros out H. injection H as <-.
    destruct (isHeader content) as [[|]|] eqn:Hh; simpl;
      (split; [|split; [auto|apply Hwrap]]).
    + split; [intros _; now exists content|reflexivity].
    + split; [discriminate|]. intros [c' [H1 H2]]. congruence.
    + split; [discriminate|]. intros [c' [H1 H2]]. congruence.
  - split; [split; [intros [e H]; discriminate|discriminate]|].
    intros out H. injection H as <-. simpl.
    split; [|split; [auto|apply Hwrap]].
    split; [discriminate|]. intros [c' [H1 _]]. discriminate.
  - split; [split; [intros [e H]; discriminate|discriminate]|].
    intros out H. injection H as <-. simpl.
    split; [|split; [auto|apply Hwrap]].
    split; [discriminate|]. intros [c' [H1 _]]. discriminate.
Qed.

(** X11.  [html_paragraph] throws exactly when the node has no custom data.
    It returns the bare children when the definition has neither a start tag
    nor a tag name (an end tag alone does not count), and when what the
    parser returns for the definition is a string or an empty array. *)
Theorem html_paragraph_fallback (node : ENode) (children : list RenderedNode) :
  ((exists e, html_paragraph options context node children = Throw e) <->
     customData node = NoData) /\
  (forall d, customData node = HtmlParagraph d ->
     startTag d = None -> tagName d = None ->
     html_paragraph options context node children = Ok (Fragment [arr children])) /\
  (forall d, customData node = HtmlParagraph d ->
     (exists s, deepFilterHtmlNode (parse (html_paragraph_source d)) = HString s) \/
     deepFilterHtmlNode (parse (html_paragraph_source d)) = HArray [] ->
     html_paragraph options context node children = Ok (Fragment [arr children])).
Proof.
  unfold html_paragraph, html_paragraph_source.
  destruct (customData node) as [|content|d|p].
  - split; [split; [reflexivity|now eexists]|].
    split; intros d H; discriminate.
  - split; [split; [intros [e H]; discriminate|discriminate]|].
    split; intros d H; discriminate.
  - split; [|split].
    + split; [|discriminate]. intros [e H].
      destruct (startTag d), (tagName d); simpl in H; try discriminate;
        match type of H with
        | context [deepFilterHtmlNode ?x] =>
            destruct (deepFilterHtmlNode x) as [?|?|[|? ?]]; discriminate
        end.
    + intros d' H Hs Ht. injection H as <-. rewrite Hs, Ht. reflexivity.
    + intros d' H Hparse. injection H as <-.
      destruct (startTag d) eqn:Hs, (tagName d) eqn:Ht; simpl;
        try reflexivity;
        simpl in Hparse; destruct Hparse as [[s' Hp]|Hp]; rewrite Hp; reflexivity.
  - split; [split; [intros [e H]; discriminate|discriminate]|].
    split; intros d H; discriminate.
Qed.

(** X12.  [resetChildrenKey] wraps every node in a fragment of its own: the
    result has as many nodes as the input, the node at each index is the
    fragment around the input node at that index, and the text is that of
    the input. *)
Theorem resetChildrenKey_wraps (c : list RenderedNode) :
  length (resetChildrenKey c) = length c /\
  (forall i, nth_error (resetChildrenKey c) i =
             option_map (fun n => Fragment [CElement n]) (nth_error c i)) /\
  flat_map texts (resetChildrenKey c) = flat_map texts c.
Proof.
  unfold resetChildrenKey. split; [apply length_map|]. split.
  - intros i. apply nth_error_map.
  - induction c as [|n c IH]; simpl; [reflexivity|].
    now rewrite IH, app_nil_r.
Qed.

(** X13.  For each render method declared without a [children] parameter,
    [getRenderer] returns that very method, and what the method returns does
    not depend on the children it is called with. *)
Theorem leaf_renderers_ignore_children (type_ : string) :
  In type_ leaf_types ->
  exists render,
    find_method type_ (methods options) = Some render /\
    getRenderer options type_ = Ok render /\
    forall context node children,
      render context node children = render context node [].
Proof.
  unfold leaf_types. simpl.
  intros H.
  repeat (destruct H as [<-|H];
          [eexists; split; [reflexivity|split; reflexivity]|]).
  contradiction.
Qed.

(** X14.  Every node type for which the syntax extension installs a block
    handler has a render method: [getRenderer] returns that method for it,
    not the placeholder. *)
Theorem block_types_have_renderers (type_ : string) :
  In type_ Syntax.block_types ->
  registered options type_ = true /\
  exists render,
    find_method type_ (methods options) = Some render /\
    getRenderer options type_ = Ok render.
Proof.
  unfold Syntax.block_types. simpl. intros H.
  repeat (destruct H as [<-|H]; [split; [reflexivity|eexists; split; reflexivity]|]).
  contradiction.
Qed.

End CodeAndTables.

(* ------------------------------------------------------------------ *)
(** * The further properties on concrete inputs *)
(* ------------------------------------------------------------------ *)

Lemma link_attributes_witness :
  get_prop "href"
    (props_of (link (imports := Samples.imports) Samples.safe_mode
                 Samples.no_macros Samples.plain_link [])) =
    VString "https://example.org" /\
  has_attribute "title"
    (link (imports := Samples.imports) Samples.safe_mode Samples.no_macros
       Samples.plain_link []) = false.
Proof.
  pose proof (link_attributes (imports := Samples.imports) Samples.safe_mode
                Samples.no_macros Samples.plain_link [])
    as (_ & Hhref & Htitle & _).
  split.
  - apply Hhref; reflexivity.
  - destruct (has_attribute "title"
                (link (imports := Samples.imports) Samples.safe_mode
                   Samples.no_macros Samples.plain_link [])) eqn:E;
      [|reflexivity].
    destruct (proj1 Htitle eq_refl) as [t [Ht Hne]].
    simpl in Ht. injection Ht as <-. now contradiction Hne.
Defined.

Lemma image_notice_or_source_witness :
  image (imports := Samples.imports) Samples.escaping Samples.no_macros
    Samples.picture = Host "img" [("src", VString "a&amp;b.png")] [].
Proof.
  apply (proj2 (image_notice_or_source (imports := Samples.imports)
                  Samples.escaping Samples.no_macros Samples.picture)).
  reflexivity.
Defined.

Lemma heading_link_targets_anchor_witness :
  exists anchor,
    children_of (heading (imports := Samples.imports) Samples.no_macros
                   Samples.h2 []) = [CElement anchor; arr []] /\
    hosts "span" anchor =
      [[("className", VString "title-id"); ("id", VString "null")]] /\
    (hosts "a" anchor = [] \/ hosts "a" anchor = [[("href", VString "#null")]]).
Proof.
  apply (heading_link_targets_anchor (imports := Samples.imports)
           Samples.no_macros Samples.h2 [] "null").
  reflexivity.
Defined.


Lemma code_block_lang_plain_witness :
  "c++" <> "" /\
  (forall c, In c (list_ascii_of_string "c++") -> is_space c = false) /\
  exists i, info (Samples.fenced "c++ linenos") = Some i /\ prefix "c++" i = true.
Proof.
  apply (code_block_lang_plain Samples.plain (Samples.fenced "c++ linenos") "c++").
  - reflexivity.
  - reflexivity.
Defined.

Lemma code_block_leading_space_witness :
  code_block Samples.plain Samples.no_macros (Samples.fenced " js") =
    Component "CodeBlock" [("lang", VUndefined)] [CText "x"].
Proof.
  apply (code_block_leading_space Samples.plain Samples.no_macros
           (Samples.fenced " js") " "%char "js").
  - reflexivity.
  - reflexivity.
Defined.

Lemma code_block_math_is_math_block_witness :
  code_block Samples.escaping Samples.no_macros (Samples.fenced "latex numbered") =
    math_block Samples.no_macros (Samples.fenced "latex numbered").
Proof.
  apply (code_block_math_is_math_block Samples.escaping Samples.no_macros
           (Samples.fenced "latex numbered") "latex").
  - reflexivity.
  - right. reflexivity.
Defined.

Lemma code_block_first_word_only_witness :
  code_block Samples.plain Samples.no_macros (Samples.fenced "js linenos") =
    code_block Samples.plain Samples.no_macros (Samples.fenced "js").
Proof.
  apply (code_block_first_word_only Samples.plain Samples.no_macros
           (Samples.fenced "js linenos") (Samples.fenced "js")).
  - reflexivity.
  - reflexivity.
Defined.

Lemma table_cell_result_witness :
  (exists e, table_cell Samples.no_macros (Samples.node "table_cell") [] = Throw e) /\
  texts (Host "th" [("align", VString "right")] [arr [Samples.word "a"]]) = ["a"].
Proof.
  split.
  - apply (proj1 (table_cell_result Samples.no_macros (Samples.node "table_cell") [])).
    reflexivity.
  - apply (proj2 (table_cell_result Samples.no_macros Samples.header_cell
                    [Samples.word "a"])).
    reflexivity.
Defined.

Lemma html_paragraph_fallback_witness :
  html_paragraph (imports := Samples.imports) Samples.plain Samples.no_macros
    Samples.end_tag_only [Samples.word "a"] =
  Ok (Fragment [arr [Samples.word "a"]]).
Proof.
  apply (proj1 (proj2 (html_paragraph_fallback (imports := Samples.imports)
                         Samples.plain Samples.no_macros Samples.end_tag_only
                         [Samples.word "a"]))
           (mkHtmlPara None (Some "</div>") None)).
  - reflexivity.
  - reflexivity.
  - reflexivity.
Defined.

Lemma leaf_renderers_ignore_children_witness :
  exists render,
    find_method "emoji" (methods (imports := Samples.imports) Samples.plain) =
      Some render /\
    getRenderer (imports := Samples.imports) Samples.plain "emoji" = Ok render /\
    forall context node children,
      render context node children = render context node [].
Proof.
  apply (leaf_renderers_ignore_children (imports := Samples.imports)
           Samples.plain "emoji").
  simpl. tauto.
Defined.

Lemma block_types_have_renderers_witness :
  registered (H := Samples.imports) Samples.plain "math_block" = true /\
  exists render,
    find_method "math_block" (methods (imports := Samples.imports) Samples.plain) =
      Some render /\
    getRenderer (imports := Samples.imports) Samples.plain "math_block" = Ok render.
Proof.
  apply (block_types_have_renderers (imports := Samples.imports)
           Samples.plain "math_block").
  simpl. tauto.
Defined.
